(** * teamscale_client: a shallow embedding of [TeamscaleClient]

    The Python class [TeamscaleClient] (teamscale_client/teamscale_client.py)
    is a thin REST client: it stores four configuration attributes, formats a
    service URL, sends one authenticated PUT per upload and reads a JSON file.

    The embedding follows the code statement by statement.  Python values that
    the code handles dynamically are a small tagged type [pyval]; the object
    [self], the HTTP requests issued so far, the behaviour of the remote side
    and the local files live in a [World] that the methods thread through a
    state-and-exception monad [M].  The two string-formatting operators the
    code uses ([%] and [str.format]) are modelled as functions on strings, and
    the JSON decoder of the [simplejson] library is a parameter of
    [read_json_from_file]. *)

From Stdlib Require Import ZArith Ascii String List.
From stdpp Require Import base option strings gmap list pretty.

Set Warnings "-register-all".

Local Open Scope string_scope.
Local Open Scope Z_scope.

(** ** Python values and exceptions *)

(** The values the client handles without looking inside: [None], integers
    (the timestamp, a status code) and strings. *)
Inductive pyval : Type :=
| PyNone
| PyInt (z : Z)
| PyStr (s : string).

(** [str(v)], as [%s] and [{}] apply it. *)
Definition py_str (v : pyval) : string :=
  match v with
  | PyNone => "None"
  | PyInt z => pretty z
  | PyStr s => s
  end.

(** A JSON document as a tagged tree: what the upload methods carry as their
    payload and what [json.load] returns.  Floating-point numbers are left
    out.  An object is an association list with distinct keys. *)
Inductive json_value : Type :=
| JNull
| JBool (b : bool)
| JInt (z : Z)
| JStr (s : string)
| JList (items : list json_value)
| JDict (members : list (string * json_value)).

(** The exceptions that can travel through the client.  [Exception] is the
    one [put] raises itself; the others come from the interpreter
    ([TypeError], [ValueError], [IndexError], [AttributeError]), from [open]
    ([IOError] with its errno), from the JSON decoder and from the HTTP
    library. *)
Inductive exn : Type :=
| Exception (arg : pyval)
| TypeError
| ValueError
| IndexError
| AttributeError (attr : string)
| IOError (errno : Z)
| JSONDecodeError
| RequestException (msg : string).

Definition ENOENT : Z := 2.
Definition EACCES : Z := 13.

Inductive result (A : Type) : Type :=
| Ok (a : A)
| Raise (e : exn).
Arguments Ok {A} a.
Arguments Raise {A} e.

Definition result_map {A B : Type} (f : A -> B) (r : result A) : result B :=
  match r with
  | Ok a => Ok (f a)
  | Raise e => Raise e
  end.

(** ** String operators *)

(** [a + b]: concatenation of two strings, addition of two integers, and a
    [TypeError] for every other pair of operands. *)
Definition py_add (a b : pyval) : result pyval :=
  match a, b with
  | PyStr s, PyStr t => Ok (PyStr (s +:+ t))
  | PyInt m, PyInt n => Ok (PyInt (m + n))
  | _, _ => Raise TypeError
  end.

(** [fmt % args] for a tuple [args].  The conversions [%s] and [%%] are
    modelled, which is all the client uses.  Too few or too many arguments
    are a [TypeError]; a [%] that ends the string or is followed by another
    character is reported as a [ValueError] (the other conversions of Python
    are outside this model). *)
Fixpoint percent_format (fmt : string) (args : list pyval) : result string :=
  match fmt with
  | EmptyString =>
      match args with
      | [] => Ok ""
      | _ :: _ => Raise TypeError
      end
  | String c rest =>
      if Ascii.eqb c "%" then
        match rest with
        | EmptyString => Raise ValueError
        | String d rest' =>
            if Ascii.eqb d "%" then
              result_map (String "%") (percent_format rest' args)
            else if Ascii.eqb d "s" then
              match args with
              | [] => Raise TypeError
              | a :: args' =>
                  result_map (String.append (py_str a)) (percent_format rest' args')
              end
            else Raise ValueError
        end
      else result_map (String c) (percent_format rest args)
  end.

(** [fmt.format(a, b, ...)] with automatically numbered fields [{}] and the
    escapes [{{] and [}}].  A field without an argument is an [IndexError],
    surplus arguments are ignored, a brace that is neither doubled nor part
    of [{}] is reported as a [ValueError] (named and indexed fields are
    outside this model). *)
Fixpoint str_format (fmt : string) (args : list pyval) : result string :=
  match fmt with
  | EmptyString => Ok ""
  | String c rest =>
      if Ascii.eqb c "{" then
        match rest with
        | EmptyString => Raise ValueError
        | String d rest' =>
            if Ascii.eqb d "{" then
              result_map (String "{") (str_format rest' args)
            else if Ascii.eqb d "}" then
              match args with
              | [] => Raise IndexError
              | a :: args' =>
                  result_map (String.append (py_str a)) (str_format rest' args')
              end
            else Raise ValueError
        end
      else if Ascii.eqb c "}" then
        match rest with
        | EmptyString => Raise ValueError
        | String d rest' =>
            if Ascii.eqb d "}" then
              result_map (String "}") (str_format rest' args)
            else Raise ValueError
        end
      else result_map (String c) (str_format rest args)
  end.

(** ** The world around the client *)

(** [requests.auth.HTTPBasicAuth(username, password)]: the object only keeps
    its two arguments. *)
Record HTTPBasicAuth : Type := mkHTTPBasicAuth {
  auth_username : pyval;
  auth_password : pyval
}.

(** One call of the HTTP library, with the keyword arguments [put] gives to
    [requests.put]. *)
Record Request : Type := mkRequest {
  req_method : string;
  req_url : pyval;
  req_params : gmap string pyval;
  req_json : json_value;
  req_headers : gmap string string;
  req_auth : HTTPBasicAuth
}.

(** [requests.Response], with the two attributes the client reads and the
    headers the caller may read later. *)
Record Response : Type := mkResponse {
  status_code : Z;
  text : string;
  resp_headers : list (string * string)
}.

(** The attributes of a [TeamscaleClient] object; [None] is an attribute
    that has not been assigned yet. *)
Record TeamscaleClient : Type := mkTeamscaleClient {
  url : option pyval;
  username : option pyval;
  auth_header : option HTTPBasicAuth;
  project : option pyval
}.

Inductive file_node : Type :=
| Readable (content : string)
| Unreadable.

(** [self] is the client object; [sent] lists the requests handed to the
    HTTP library, oldest first; [network] is the remote side: what the
    library answers (a response or an exception of its own) to a request,
    given the requests before it; [disk] maps a path to the file there. *)
Record World : Type := mkWorld {
  self : TeamscaleClient;
  sent : list Request;
  network : list Request -> Request -> result Response;
  disk : gmap string file_node
}.

Definition blank : TeamscaleClient :=
  {| url := None; username := None; auth_header := None; project := None |}.

Definition with_self (c : TeamscaleClient) (w : World) : World :=
  {| self := c; sent := sent w; network := network w; disk := disk w |}.

Definition with_sent (l : list Request) (w : World) : World :=
  {| self := self w; sent := l; network := network w; disk := disk w |}.

(** ** The monad of methods: state passing with exceptions *)

Definition M (A : Type) : Type := World -> result A * World.

Definition ret {A : Type} (a : A) : M A := fun w => (Ok a, w).

Definition raise {A : Type} (e : exn) : M A := fun w => (Raise e, w).

Definition bind {A B : Type} (m : M A) (k : A -> M B) : M B :=
  fun w =>
    match m w with
    | (Ok a, w') => k a w'
    | (Raise e, w') => (Raise e, w')
    end.

Definition lift {A : Type} (r : result A) : M A := fun w => (r, w).

Notation "'do' x <- m 'in' k" := (bind m (fun x => k))
  (at level 10, x name, m at level 100, k at level 200,
   format "'[v' 'do'  x  <-  m  'in' '/' k ']'").

(** Reading and assigning the attributes of [self]. *)
Definition getattr {A : Type} (name : string)
    (field : TeamscaleClient -> option A) : M A :=
  fun w =>
    match field (self w) with
    | Some v => (Ok v, w)
    | None => (Raise (AttributeError name), w)
    end.

Definition setattr (update : TeamscaleClient -> TeamscaleClient) : M unit :=
  fun w => (Ok tt, with_self (update (self w)) w).

Definition set_url (v : pyval) (c : TeamscaleClient) : TeamscaleClient :=
  {| url := Some v; username := username c;
     auth_header := auth_header c; project := project c |}.

Definition set_username (v : pyval) (c : TeamscaleClient) : TeamscaleClient :=
  {| url := url c; username := Some v;
     auth_header := auth_header c; project := project c |}.

Definition set_auth_header (a : HTTPBasicAuth) (c : TeamscaleClient)
    : TeamscaleClient :=
  {| url := url c; username := username c;
     auth_header := Some a; project := project c |}.

Definition set_project (v : pyval) (c : TeamscaleClient) : TeamscaleClient :=
  {| url := url c; username := username c;
     auth_header := auth_header c; project := Some v |}.

(** [requests.put(...)]: the request is recorded, the remote side answers. *)
Definition requests_put (r : Request) : M Response :=
  fun w => (network w (sent w) r, with_sent (sent w ++ [r]) w).

(** [open(path)] followed by reading the whole file. *)
Definition open_read (path : string) : M string :=
  fun w =>
    match disk w !! path with
    | Some (Readable content) => (Ok content, w)
    | Some Unreadable => (Raise (IOError EACCES), w)
    | None => (Raise (IOError ENOENT), w)
    end.

(** ** The methods of [TeamscaleClient] *)

Definition __init__ (url username password project : pyval) : M unit :=
  do _ <- setattr (set_url url) in
  do _ <- setattr (set_username username) in
  do _ <- setattr (set_auth_header (mkHTTPBasicAuth username password)) in
  setattr (set_project project).

Definition put (url : pyval) (json : json_value)
    (parameters : gmap string pyval) : M Response :=
  do auth <- getattr "auth_header" auth_header in
  do response <- requests_put
      {| req_method := "PUT";
         req_url := url;
         req_params := parameters;
         req_json := json;
         req_headers := {[ "Content-Type" := "application/json" ]};
         req_auth := auth |} in
  if negb (Z.eqb (status_code response) 200) then
    do head <- lift (py_add (PyStr "ERROR: PUT ") url) in
    do tail <- lift (str_format ": {}:{}"
                       [PyInt (status_code response); PyStr (text response)]) in
    do msg <- lift (py_add head (PyStr tail)) in
    raise (Exception msg)
  else ret response.

Definition get_project_service_url (service_name : pyval) : M pyval :=
  do self_url <- getattr "url" url in
  do self_project <- getattr "project" project in
  do s <- lift (percent_format "%s/p/%s/%s/"
                  [self_url; self_project; service_name]) in
  ret (PyStr s).

Definition _upload_external_data (service_name : pyval)
    (json_data : json_value) (timestamp message partition : pyval)
    : M Response :=
  do service_url <- get_project_service_url service_name in
  let parameters : gmap string pyval :=
    {[ "t" := timestamp;
       "message" := message;
       "partition" := partition;
       "skip-session" := PyStr "true" ]} in
  put service_url json_data parameters.

Definition upload_findings (findings : json_value)
    (timestamp message partition : pyval) : M Response :=
  _upload_external_data (PyStr "add-external-findings")
    findings timestamp message partition.

Definition upload_metrics (metrics : json_value)
    (timestamp message partition : pyval) : M Response :=
  _upload_external_data (PyStr "add-external-metrics")
    metrics timestamp message partition.

(** [json.load] belongs to the [simplejson] library: the decoder is a
    parameter, [None] standing for its [JSONDecodeError]. *)
Section ReadJson.

Variable json_loads : string -> option json_value.

Definition json_load (content : string) : M json_value :=
  match json_loads content with
  | Some v => ret v
  | None => raise JSONDecodeError
  end.

Definition read_json_from_file (file_path : string) : M json_value :=
  do json_file <- open_read file_path in
  do json_data <- json_load json_file in
  ret json_data.

End ReadJson.

(** ** A reference JSON decoder

    An executable stand-in for [simplejson]'s decoder on the part of JSON
    that [json_value] can hold: [null], [true], [false], integers, strings
    without escape sequences, arrays and objects.  Everything else
    (fractions, exponents, backslash escapes) is rejected.  It instantiates
    the decoder parameter of [read_json_from_file] on concrete files. *)
Module SimpleJson.

Definition dquote : ascii := ascii_of_nat 34.
Definition backslash : ascii := ascii_of_nat 92.

Definition is_space (c : ascii) : bool :=
  let n := nat_of_ascii c in
  Nat.eqb n 32 || Nat.eqb n 9 || Nat.eqb n 10 || Nat.eqb n 13.

Fixpoint skip_ws (s : string) : string :=
  match s with
  | EmptyString => EmptyString
  | String c rest => if is_space c then skip_ws rest else s
  end.

Fixpoint strip_prefix (p s : string) : option string :=
  match p, s with
  | EmptyString, _ => Some s
  | String a p', String b s' =>
      if Ascii.eqb a b then strip_prefix p' s' else None
  | String _ _, EmptyString => None
  end.

Definition digit_of (c : ascii) : option Z :=
  let n := Z.of_nat (nat_of_ascii c) in
  if (48 <=? n) && (n <=? 57) then Some (n - 48) else None.

Fixpoint read_digits (s : string) (acc : Z) : Z * string :=
  match s with
  | EmptyString => (acc, EmptyString)
  | String c rest =>
      match digit_of c with
      | Some d => read_digits rest (10 * acc + d)
      | None => (acc, s)
      end
  end.

(** The character after an integer must not turn it into a float. *)
Definition ends_integer (s : string) : bool :=
  match s with
  | String c _ =>
      negb (Ascii.eqb c "." || Ascii.eqb c "e" || Ascii.eqb c "E")
  | EmptyString => true
  end.

Definition read_int (s : string) : option (Z * string) :=
  match s with
  | EmptyString => None
  | String c rest =>
      d ← digit_of c;
      let '(z, rest') :=
        if d =? 0 then (0, rest) else read_digits rest d in
      if ends_integer rest' then Some (z, rest') else None
  end.

(** The characters up to the closing quote; the opening quote is gone. *)
Fixpoint read_string (s : string) : option (string * string) :=
  match s with
  | EmptyString => None
  | String c rest =>
      if Ascii.eqb c dquote then Some (EmptyString, rest)
      else if Ascii.eqb c backslash then None
      else if Nat.ltb (nat_of_ascii c) 32 then None
      else '(t, rest') ← read_string rest; Some (String c t, rest')
  end.

(** [d[k] = v] on an association list: a repeated key keeps its place and
    takes the last value, as a Python dict does. *)
Fixpoint dict_set (k : string) (v : json_value)
    (d : list (string * json_value)) : list (string * json_value) :=
  match d with
  | [] => [(k, v)]
  | (k', v') :: d' =>
      if String.eqb k k' then (k, v) :: d' else (k', v') :: dict_set k v d'
  end.

Fixpoint parse_value (fuel : nat) (s : string)
    : option (json_value * string) :=
  match fuel with
  | O => None
  | S fuel' =>
      match skip_ws s with
      | EmptyString => None
      | String c rest =>
          if Ascii.eqb c "n" then
            rest' ← strip_prefix "ull" rest; Some (JNull, rest')
          else if Ascii.eqb c "t" then
            rest' ← strip_prefix "rue" rest; Some (JBool true, rest')
          else if Ascii.eqb c "f" then
            rest' ← strip_prefix "alse" rest; Some (JBool false, rest')
          else if Ascii.eqb c dquote then
            '(t, rest') ← read_string rest; Some (JStr t, rest')
          else if Ascii.eqb c "-" then
            '(z, rest') ← read_int rest; Some (JInt (- z), rest')
          else if Ascii.eqb c "[" then
            match strip_prefix "]" (skip_ws rest) with
            | Some rest' => Some (JList [], rest')
            | None => parse_items fuel' rest []
            end
          else if Ascii.eqb c "{" then
            match strip_prefix "}" (skip_ws rest) with
            | Some rest' => Some (JDict [], rest')
            | None => parse_members fuel' rest []
            end
          else
            '(z, rest') ← read_int (String c rest); Some (JInt z, rest')
      end
  end
with parse_items (fuel : nat) (s : string) (acc : list json_value)
    : option (json_value * string) :=
  match fuel with
  | O => None
  | S fuel' =>
      '(v, rest) ← parse_value fuel' s;
      match skip_ws rest with
      | EmptyString => None
      | String c rest' =>
          if Ascii.eqb c "," then parse_items fuel' rest' (acc ++ [v])
          else if Ascii.eqb c "]" then Some (JList (acc ++ [v]), rest')
          else None
      end
  end
with parse_members (fuel : nat) (s : string)
    (acc : list (string * json_value)) : option (json_value * string) :=
  match fuel with
  | O => None
  | S fuel' =>
      after_quote ← strip_prefix (String dquote EmptyString) (skip_ws s);
      '(k, rest) ← read_string after_quote;
      after_colon ← strip_prefix ":" (skip_ws rest);
      '(v, rest') ← parse_value fuel' after_colon;
      match skip_ws rest' with
      | EmptyString => None
      | String c rest'' =>
          if Ascii.eqb c "," then parse_members fuel' rest'' (dict_set k v acc)
          else if Ascii.eqb c "}" then Some (JDict (dict_set k v acc), rest'')
          else None
      end
  end.

(** The whole text must be one document, followed by white space at most.
    The fuel bounds the nesting of the mutual recursion and grows with the
    length of the text. *)
Definition loads (s : string) : option json_value :=
  '(v, rest) ← parse_value (2 * String.length s + 2) s;
  match skip_ws rest with
  | EmptyString => Some v
  | String _ _ => None
  end.

End SimpleJson.

(** ** Clients and worlds used in the statements *)

(** The object [TeamscaleClient(url, username, password, project)] builds. *)
Definition client (url username password project : pyval) : TeamscaleClient :=
  {| url := Some url;
     username := Some username;
     auth_header := Some (mkHTTPBasicAuth username password);
     project := Some project |}.

(** The request [put] hands to the HTTP library. *)
Definition put_request (auth : HTTPBasicAuth) (url : pyval)
    (json : json_value) (parameters : gmap string pyval) : Request :=
  {| req_method := "PUT";
     req_url := url;
     req_params := parameters;
     req_json := json;
     req_headers := {[ "Content-Type" := "application/json" ]};
     req_auth := auth |}.

(** A configuration value is absent when it is [None] or the empty string. *)
Definition absent (v : pyval) : Prop := v = PyNone \/ v = PyStr "".

(** The text [{"a": 1}] and a truncated variant of it. *)
Definition doc_a1 : string :=
  "{" +:+ String SimpleJson.dquote "a" +:+ String SimpleJson.dquote ": 1}".

Definition doc_broken : string :=
  "{" +:+ String SimpleJson.dquote "a" +:+ String SimpleJson.dquote ": ".

Definition example_client : TeamscaleClient :=
  client (PyStr "http://ts.example.com") (PyStr "build") (PyStr "s3cret")
    (PyStr "proj1").

(** A world whose remote side gives the same answer to every request. *)
Definition example_world (answer : result Response) : World :=
  {| self := example_client;
     sent := [];
     network := fun _ _ => answer;
     disk := {[ "metrics.json" := Readable doc_a1;
                "broken.json" := Readable doc_broken;
                "locked.json" := Unreadable ]} |}.

Definition resp_ok : Response :=
  {| status_code := 200; text := "";
     resp_headers := [("Content-Length", "0")] |}.

Definition resp_not_found : Response :=
  {| status_code := 404; text := "not found"; resp_headers := [] |}.

Definition example_findings : json_value :=
  JList [JDict [("findings", JList []); ("path", JStr "src/a.c")]].

(** An operation that leaves the object [self] as it found it, whether it
    returns or raises. *)
Definition preserves_self {A : Type} (m : M A) : Prop :=
  forall w : World, self (snd (m w)) = self w.

(** The query parameters of an upload. *)
Definition upload_parameters (timestamp message partition : pyval)
    : gmap string pyval :=
  {[ "t" := timestamp;
     "message" := message;
     "partition" := partition;
     "skip-session" := PyStr "true" ]}.

(** [m], run in [w], hands exactly one request to the HTTP library: a PUT to
    the project service URL of [service] whose query parameters are the four
    of an upload and whose body is [data]. *)
Definition issues_one_put {A : Type} (m : M A) (w : World) (service : string)
    (data : json_value) (timestamp message partition : pyval) : Prop :=
  exists (U : pyval) (r : Request),
    get_project_service_url (PyStr service) w = (Ok U, w)
    /\ sent (snd (m w)) = (sent w ++ [r])%list
    /\ req_method r = "PUT"
    /\ req_url r = U
    /\ req_params r
       = {[ "t" := timestamp; "message" := message; "partition" := partition;
            "skip-session" := PyStr "true" ]}
    /\ size (req_params r) = 4%nat
    /\ req_json r = data.

Definition example_timestamp : pyval := PyInt 1446714000.
Definition example_message : pyval := PyStr "nightly build".
Definition example_partition : pyval := PyStr "lint".

(** [t] occurs in [s]. *)
Definition contains (s t : string) : Prop :=
  exists pre post : string, s = pre +:+ t +:+ post.

(** The request carries the JSON content type and the basic-auth
    credentials made of [username] and [password]. *)
Definition carries_json_and_auth (r : Request) (username password : pyval)
    : Prop :=
  req_headers r !! "Content-Type" = Some "application/json"
  /\ req_auth r = mkHTTPBasicAuth username password.

(** Nothing constructed yet, nothing sent, no file, and a remote side that
    is not reachable. *)
Definition fresh_world : World :=
  {| self := blank;
     sent := [];
     network := fun _ _ => Raise (RequestException "connection refused");
     disk := ∅ |}.

(** The reading of the specification under which a constructor call with an
    absent value raises. *)
Definition construction_rejects_absent : Prop :=
  forall (u n pw p : pyval) (w : World),
    absent u \/ absent n \/ absent pw \/ absent p ->
    exists e : exn, fst (__init__ u n pw p w) = Raise e.

(** ** Predicates of the further properties *)

(** Running [m] leaves the files and the remote side alone and hands at most
    [n] new requests to the HTTP library, after those already sent. *)
Definition io_bounded {A : Type} (n : nat) (m : M A) : Prop :=
  forall w : World,
    disk (snd (m w)) = disk w
    /\ network (snd (m w)) = network w
    /\ exists l : list Request,
         sent (snd (m w)) = (sent w ++ l)%list /\ (length l <= n)%nat.

(** [c] occurs in [s]. *)
Fixpoint has_char (c : ascii) (s : string) : bool :=
  match s with
  | EmptyString => false
  | String d rest => Ascii.eqb c d || has_char c rest
  end.

(** * Properties *)

(** ** Strings *)

Lemma append_empty_r (s : string) : s +:+ "" = s.
Proof.
  induction s as [|c s IH]; [reflexivity|].
  change (String c (s +:+ "") = String c s). now rewrite IH.
Qed.

Lemma append_assoc (s t v : string) : (s +:+ t) +:+ v = s +:+ t +:+ v.
Proof.
  induction s as [|c s IH]; [reflexivity|].
  change (String c ((s +:+ t) +:+ v) = String c (s +:+ t +:+ v)).
  now rewrite IH.
Qed.

(** The URL template: three [%s] fields and three arguments always format. *)
Lemma percent_format_service_url (a b c : pyval) :
  percent_format "%s/p/%s/%s/" [a; b; c]
  = Ok (py_str a +:+ "/p/" +:+ py_str b +:+ "/" +:+ py_str c +:+ "/").
Proof. reflexivity. Qed.

(** The tail of the error message: two [{}] fields and two arguments. *)
Lemma str_format_error_tail (a b : pyval) :
  str_format ": {}:{}" [a; b] = Ok (": " +:+ py_str a +:+ ":" +:+ py_str b).
Proof. simpl. now rewrite append_empty_r. Qed.

Example percent_format_too_few :
  percent_format "%s/p/%s/%s/" [PyStr "a"; PyStr "b"] = Raise TypeError.
Proof. reflexivity. Qed.

Example percent_format_escape :
  percent_format "100%% of %s" [PyInt 7] = Ok "100% of 7".
Proof. reflexivity. Qed.

Example str_format_braces :
  str_format "{{{}}}" [PyNone] = Ok "{None}".
Proof. reflexivity. Qed.

Example str_format_missing_argument :
  str_format ": {}:{}" [PyInt 404] = Raise IndexError.
Proof. reflexivity. Qed.

(** ** Running the methods *)

Lemma bind_ok {A B : Type} (m : M A) (k : A -> M B) (w w' : World) (a : A) :
  m w = (Ok a, w') -> bind m k w = k a w'.
Proof. intros E. unfold bind. now rewrite E. Qed.

Lemma bind_raise {A B : Type} (m : M A) (k : A -> M B) (w w' : World) (e : exn) :
  m w = (Raise e, w') -> bind m k w = (Raise e, w').
Proof. intros E. unfold bind. now rewrite E. Qed.

Lemma getattr_set {A : Type} (name : string)
    (field : TeamscaleClient -> option A) (w : World) (v : A) :
  field (self w) = Some v -> getattr name field w = (Ok v, w).
Proof. intros E. unfold getattr. now rewrite E. Qed.

Lemma init_run (u n pw p : pyval) (w : World) :
  __init__ u n pw p w = (Ok tt, with_self (client u n pw p) w).
Proof. reflexivity. Qed.

Lemma get_project_service_url_run (w : World) (u p sn : pyval) :
  url (self w) = Some u ->
  project (self w) = Some p ->
  get_project_service_url sn w
  = (Ok (PyStr (py_str u +:+ "/p/" +:+ py_str p +:+ "/" +:+ py_str sn +:+ "/")), w).
Proof.
  intros Hu Hp. unfold get_project_service_url.
  rewrite (bind_ok _ _ w w u (getattr_set _ _ _ _ Hu)).
  rewrite (bind_ok _ _ w w p (getattr_set _ _ _ _ Hp)).
  unfold bind, lift, ret. now rewrite percent_format_service_url.
Qed.

(** What [put] does, case by case on the answer of the remote side. *)
Lemma put_run (w : World) (a : HTTPBasicAuth) (u : pyval) (j : json_value)
    (ps : gmap string pyval) :
  auth_header (self w) = Some a ->
  put u j ps w
  = (match network w (sent w) (put_request a u j ps) with
     | Raise e => Raise e
     | Ok resp =>
         if Z.eqb (status_code resp) 200 then Ok resp
         else match u with
              | PyStr s =>
                  Raise (Exception (PyStr ("ERROR: PUT " +:+ s +:+ ": "
                           +:+ pretty (status_code resp) +:+ ":" +:+ text resp)))
              | _ => Raise TypeError
              end
     end,
     with_sent (sent w ++ [put_request a u j ps]) w).
Proof.
  intros Ha. unfold put.
  rewrite (bind_ok _ _ w w a (getattr_set _ _ _ _ Ha)).
  unfold bind at 1, requests_put. fold (put_request a u j ps).
  destruct (network w (sent w) (put_request a u j ps)) as [resp|e];
    [|reflexivity].
  destruct (Z.eqb (status_code resp) 200); unfold negb; cbv iota;
    [reflexivity|].
  unfold bind, lift, raise. rewrite str_format_error_tail.
  now destruct u as [|z|s].
Qed.

Lemma upload_external_data_run (w : World) (u p sn : pyval)
    (d : json_value) (ts msg part : pyval) :
  url (self w) = Some u ->
  project (self w) = Some p ->
  _upload_external_data sn d ts msg part w
  = put (PyStr (py_str u +:+ "/p/" +:+ py_str p +:+ "/" +:+ py_str sn +:+ "/"))
      d (upload_parameters ts msg part) w.
Proof.
  intros Hu Hp. unfold _upload_external_data.
  now rewrite (bind_ok _ _ w w _ (get_project_service_url_run w u p sn Hu Hp)).
Qed.

(** ** The frame: no method assigns an attribute of [self] *)

Section Frame.

Context {A B : Type}.

Lemma preserves_ret (a : A) : preserves_self (ret a).
Proof. now intros w. Qed.

Lemma preserves_raise (e : exn) : preserves_self (@raise A e).
Proof. now intros w. Qed.

Lemma preserves_lift (r : result A) : preserves_self (lift r).
Proof. now intros w. Qed.

Lemma preserves_getattr (name : string)
    (field : TeamscaleClient -> option A) :
  preserves_self (getattr name field).
Proof. intros w. unfold getattr. now destruct (field (self w)). Qed.

Lemma preserves_bind (m : M A) (k : A -> M B) :
  preserves_self m ->
  (forall a, preserves_self (k a)) ->
  preserves_self (bind m k).
Proof.
  intros Hm Hk w. unfold bind. specialize (Hm w).
  destruct (m w) as [[a|e] w']; simpl in Hm.
  - now rewrite Hk.
  - exact Hm.
Qed.

Lemma preserves_if (c : bool) (m1 m2 : M A) :
  preserves_self m1 -> preserves_self m2 ->
  preserves_self (if c then m1 else m2).
Proof. now destruct c. Qed.

End Frame.

Lemma preserves_requests_put (r : Request) : preserves_self (requests_put r).
Proof. now intros w. Qed.

Lemma preserves_open_read (path : string) : preserves_self (open_read path).
Proof.
  intros w. unfold open_read. now destruct (disk w !! path) as [[c|]|].
Qed.

Lemma preserves_json_load (loads : string -> option json_value) (c : string) :
  preserves_self (json_load loads c).
Proof. intros w. unfold json_load. now destruct (loads c). Qed.

Create HintDb frame.
#[local] Hint Resolve preserves_ret preserves_raise preserves_lift
  preserves_getattr preserves_bind preserves_if preserves_requests_put
  preserves_open_read preserves_json_load : frame.

Ltac frame := repeat (intros; first
  [ apply preserves_bind | apply preserves_if | solve [auto with frame] ]).

Lemma preserves_put (u : pyval) (j : json_value) (ps : gmap string pyval) :
  preserves_self (put u j ps).
Proof. unfold put. frame. Qed.

Lemma preserves_get_project_service_url (sn : pyval) :
  preserves_self (get_project_service_url sn).
Proof. unfold get_project_service_url. frame. Qed.

Lemma preserves_upload_external_data (sn : pyval) (d : json_value)
    (ts msg part : pyval) :
  preserves_self (_upload_external_data sn d ts msg part).
Proof.
  unfold _upload_external_data. apply preserves_bind.
  - apply preserves_get_project_service_url.
  - intros service_url. apply preserves_put.
Qed.

Lemma preserves_read_json_from_file (loads : string -> option json_value)
    (path : string) :
  preserves_self (read_json_from_file loads path).
Proof. unfold read_json_from_file. frame. Qed.

(** * The claims *)

(** C1. On a configured client, for every payload, timestamp, message and
    partition, [upload_findings] hands exactly one request to the HTTP
    library: a PUT to the project service URL of [add-external-findings],
    with exactly the four query parameters [t], [message], [partition] and
    [skip-session] (the last one the string [true]) and the payload
    unchanged as its body; [upload_metrics] does the same for
    [add-external-metrics]. *)
Theorem upload_issues_one_put (w : World) (u p : pyval) (a : HTTPBasicAuth)
    (data : json_value) (ts msg part : pyval) :
  url (self w) = Some u ->
  project (self w) = Some p ->
  auth_header (self w) = Some a ->
  issues_one_put (upload_findings data ts msg part) w
    "add-external-findings" data ts msg part
  /\ issues_one_put (upload_metrics data ts msg part) w
       "add-external-metrics" data ts msg part.
Proof.
  intros Hu Hp Ha.
  split; eexists; eexists.
  - split; [apply (get_project_service_url_run w u p _ Hu Hp)|].
    unfold upload_findings.
    rewrite (upload_external_data_run w u p _ data ts msg part Hu Hp).
    rewrite (put_run w a _ _ _ Ha). simpl.
    split; [reflexivity|]. repeat split.
  - split; [apply (get_project_service_url_run w u p _ Hu Hp)|].
    unfold upload_metrics.
    rewrite (upload_external_data_run w u p _ data ts msg part Hu Hp).
    rewrite (put_run w a _ _ _ Ha). simpl.
    split; [reflexivity|]. repeat split.
Qed.

Lemma upload_issues_one_put_witness :
  url (self (example_world (Ok resp_ok))) = Some (PyStr "http://ts.example.com")
  /\ project (self (example_world (Ok resp_ok))) = Some (PyStr "proj1")
  /\ auth_header (self (example_world (Ok resp_ok)))
     = Some (mkHTTPBasicAuth (PyStr "build") (PyStr "s3cret"))
  /\ issues_one_put
       (upload_findings example_findings example_timestamp example_message
          example_partition)
       (example_world (Ok resp_ok)) "add-external-findings" example_findings
       example_timestamp example_message example_partition
  /\ issues_one_put
       (upload_metrics example_findings example_timestamp example_message
          example_partition)
       (example_world (Ok resp_ok)) "add-external-metrics" example_findings
       example_timestamp example_message example_partition.
Proof.
  repeat (split; [reflexivity|]).
  exact (upload_issues_one_put (example_world (Ok resp_ok)) _ _ _
           example_findings example_timestamp example_message
           example_partition eq_refl eq_refl eq_refl).
Defined.

(** The request of the example, spelled out. *)
Example upload_findings_example :
  upload_findings example_findings example_timestamp example_message
    example_partition (example_world (Ok resp_ok))
  = (Ok resp_ok,
     with_sent
       [put_request (mkHTTPBasicAuth (PyStr "build") (PyStr "s3cret"))
          (PyStr "http://ts.example.com/p/proj1/add-external-findings/")
          example_findings
          (upload_parameters example_timestamp example_message
             example_partition)]
       (example_world (Ok resp_ok))).
Proof. reflexivity. Qed.

(** C2. Given the response of the HTTP library to the request of [put]:
    [put] returns a response if and only if that status code is 200, and then
    it is this very response; for every other status code it raises
    [Exception] with the message made of the text ERROR: PUT, the URL, a
    colon and a space, the status code, a colon and the body text, so the
    message contains the URL, the status code and the body text. *)
Theorem put_returns_iff_200 (w : World) (a : HTTPBasicAuth) (u : string)
    (j : json_value) (ps : gmap string pyval) (resp : Response) :
  auth_header (self w) = Some a ->
  network w (sent w) (put_request a (PyStr u) j ps) = Ok resp ->
  (status_code resp = 200 -> fst (put (PyStr u) j ps w) = Ok resp)
  /\ (forall r : Response,
        fst (put (PyStr u) j ps w) = Ok r <-> r = resp /\ status_code resp = 200)
  /\ (status_code resp <> 200 ->
      exists msg : string,
        fst (put (PyStr u) j ps w) = Raise (Exception (PyStr msg))
        /\ msg = "ERROR: PUT " +:+ u +:+ ": " +:+ pretty (status_code resp)
                 +:+ ":" +:+ text resp
        /\ contains msg u
        /\ contains msg (pretty (status_code resp))
        /\ contains msg (text resp)).
Proof.
  intros Ha Hnet. rewrite (put_run w a _ j ps Ha), Hnet. simpl.
  destruct (Z.eqb_spec (status_code resp) 200) as [E|NE].
  - split; [reflexivity|]. split; [|contradiction].
    intros r. split.
    + intros [= <-]. now split.
    + now intros [-> _].
  - split; [contradiction|]. split.
    + intros r. split; [discriminate | intros [_ E]; contradiction].
    + intros _. eexists. split; [reflexivity|]. split; [reflexivity|].
      repeat split.
      * exists "ERROR: PUT ". eexists. reflexivity.
      * exists ("ERROR: PUT " +:+ u +:+ ": "). eexists.
        now rewrite !append_assoc.
      * exists ("ERROR: PUT " +:+ u +:+ ": " +:+ pretty (status_code resp)
                +:+ ":"), "".
        now rewrite !append_assoc, append_empty_r.
Qed.

Lemma put_returns_iff_200_witness :
  auth_header (self (example_world (Ok resp_not_found)))
  = Some (mkHTTPBasicAuth (PyStr "build") (PyStr "s3cret"))
  /\ fst (put (PyStr "http://ts.example.com/p/proj1/add-external-metrics/")
           example_findings ∅ (example_world (Ok resp_not_found)))
     = Raise (Exception (PyStr
         "ERROR: PUT http://ts.example.com/p/proj1/add-external-metrics/: 404:not found")).
Proof.
  split; [reflexivity|].
  destruct (put_returns_iff_200 (example_world (Ok resp_not_found))
              (mkHTTPBasicAuth (PyStr "build") (PyStr "s3cret"))
              "http://ts.example.com/p/proj1/add-external-metrics/"
              example_findings ∅ resp_not_found eq_refl eq_refl)
    as (_ & _ & Hraise).
  destruct Hraise as (msg & Hput & -> & _); [discriminate|].
  exact Hput.
Defined.

(** C3. On a client whose [url] and [project] are the strings [u] and [p],
    [get_project_service_url] returns, for every service name [sn], exactly
    the string made of [u], the segment [/p/], [p], a slash, [sn] and a
    closing slash; it always returns (it cannot raise) and leaves the world
    as it was: no request is sent and no file is read. *)
Theorem get_project_service_url_exact (w : World) (u p sn : string) :
  url (self w) = Some (PyStr u) ->
  project (self w) = Some (PyStr p) ->
  get_project_service_url (PyStr sn) w
  = (Ok (PyStr (u +:+ "/p/" +:+ p +:+ "/" +:+ sn +:+ "/")), w).
Proof.
  intros Hu Hp.
  exact (get_project_service_url_run w (PyStr u) (PyStr p) (PyStr sn) Hu Hp).
Qed.

(** The end-to-end example of the specification. *)
Lemma get_project_service_url_exact_witness :
  url (self (example_world (Ok resp_ok))) = Some (PyStr "http://ts.example.com")
  /\ project (self (example_world (Ok resp_ok))) = Some (PyStr "proj1")
  /\ get_project_service_url (PyStr "add-external-metrics")
       (example_world (Ok resp_ok))
     = (Ok (PyStr "http://ts.example.com/p/proj1/add-external-metrics/"),
        example_world (Ok resp_ok)).
Proof.
  repeat (split; [reflexivity|]).
  exact (get_project_service_url_exact (example_world (Ok resp_ok))
           "http://ts.example.com" "proj1" "add-external-metrics"
           eq_refl eq_refl).
Defined.

(** C4 does not hold as stated: the constructor accepts absent values.  With
    [None] for the URL and the password and the empty string for the user
    name and the project, construction returns normally. *)
Lemma construction_accepts_absent :
  absent PyNone
  /\ absent (PyStr "")
  /\ fst (__init__ PyNone (PyStr "") PyNone (PyStr "") fresh_world) = Ok tt
  /\ ~ construction_rejects_absent.
Proof.
  split; [now left|]. split; [now right|]. split; [reflexivity|].
  intros H.
  destruct (H PyNone (PyStr "") PyNone (PyStr "") fresh_world) as [e He].
  - left. now left.
  - discriminate He.
Qed.

(** C4, amended.  Construction does not fail when a configuration value is
    absent ([None] or the empty string): the constructor checks nothing,
    returns normally and stores the values as they were given. *)
Theorem construction_ignores_absent (u n pw p : pyval) (w : World) :
  absent u \/ absent n \/ absent pw \/ absent p ->
  fst (__init__ u n pw p w) = Ok tt
  /\ self (snd (__init__ u n pw p w)) = client u n pw p.
Proof. intros _. now rewrite init_run. Qed.

Lemma construction_ignores_absent_witness :
  (absent PyNone \/ absent (PyStr "") \/ absent PyNone \/ absent (PyStr ""))
  /\ fst (__init__ PyNone (PyStr "") PyNone (PyStr "") fresh_world) = Ok tt
  /\ self (snd (__init__ PyNone (PyStr "") PyNone (PyStr "") fresh_world))
     = client PyNone (PyStr "") PyNone (PyStr "").
Proof.
  split; [left; now left|].
  exact (construction_ignores_absent PyNone (PyStr "") PyNone (PyStr "")
           fresh_world (or_introl (or_introl eq_refl))).
Defined.

(** C5. On a configured client, [_upload_external_data] gets its target URL
    from [get_project_service_url] and then behaves exactly as [put] on that
    URL, the payload and the four upload parameters: the same returned
    response when [put] returns, the same exception when [put] raises, and
    the same world afterwards. *)
Theorem upload_external_data_is_put (w : World) (u p sn : pyval)
    (d : json_value) (ts msg part : pyval) :
  url (self w) = Some u ->
  project (self w) = Some p ->
  exists U : pyval,
    get_project_service_url sn w = (Ok U, w)
    /\ _upload_external_data sn d ts msg part w
       = put U d {[ "t" := ts; "message" := msg; "partition" := part;
                    "skip-session" := PyStr "true" ]} w.
Proof.
  intros Hu Hp. eexists. split.
  - apply (get_project_service_url_run w u p sn Hu Hp).
  - apply (upload_external_data_run w u p sn d ts msg part Hu Hp).
Qed.

(** A failing [put]: the 404 of the remote side reaches the caller of
    [_upload_external_data] as the exception [put] raised. *)
Lemma upload_external_data_is_put_witness :
  url (self (example_world (Ok resp_not_found)))
  = Some (PyStr "http://ts.example.com")
  /\ project (self (example_world (Ok resp_not_found))) = Some (PyStr "proj1")
  /\ exists U : pyval,
       get_project_service_url (PyStr "add-external-metrics")
         (example_world (Ok resp_not_found))
       = (Ok U, example_world (Ok resp_not_found))
       /\ _upload_external_data (PyStr "add-external-metrics")
            example_findings example_timestamp example_message
            example_partition (example_world (Ok resp_not_found))
          = put U example_findings
              {[ "t" := example_timestamp; "message" := example_message;
                 "partition" := example_partition;
                 "skip-session" := PyStr "true" ]}
              (example_world (Ok resp_not_found)).
Proof.
  repeat (split; [reflexivity|]).
  exact (upload_external_data_is_put (example_world (Ok resp_not_found))
           _ _ (PyStr "add-external-metrics") example_findings
           example_timestamp example_message example_partition
           eq_refl eq_refl).
Defined.

Example upload_metrics_not_found :
  fst (upload_metrics example_findings example_timestamp example_message
         example_partition (example_world (Ok resp_not_found)))
  = Raise (Exception (PyStr
      "ERROR: PUT http://ts.example.com/p/proj1/add-external-metrics/: 404:not found")).
Proof. reflexivity. Qed.

Example upload_metrics_unreachable :
  fst (upload_metrics example_findings example_timestamp example_message
         example_partition
         (with_self example_client fresh_world))
  = Raise (RequestException "connection refused").
Proof. reflexivity. Qed.

(** C6. After construction with [username] and [password], the request that
    [put] hands to the HTTP library carries the header Content-Type:
    application/json and the basic-auth credentials made of that username
    and password; so do the requests of [upload_findings] and
    [upload_metrics].  Each of these calls sends that one request only. *)
Theorem requests_carry_json_and_auth (w0 : World) (u n pw p : pyval) :
  let w := snd (__init__ u n pw p w0) in
  (forall (target : pyval) (j : json_value) (ps : gmap string pyval),
      exists r : Request,
        sent (snd (put target j ps w)) = (sent w ++ [r])%list
        /\ carries_json_and_auth r n pw)
  /\ (forall (d : json_value) (ts msg part : pyval),
        exists r : Request,
          sent (snd (upload_findings d ts msg part w)) = (sent w ++ [r])%list
          /\ carries_json_and_auth r n pw)
  /\ (forall (d : json_value) (ts msg part : pyval),
        exists r : Request,
          sent (snd (upload_metrics d ts msg part w)) = (sent w ++ [r])%list
          /\ carries_json_and_auth r n pw).
Proof.
  intros w. subst w. rewrite init_run. simpl.
  set (w := with_self (client u n pw p) w0).
  assert (Ha : auth_header (self w) = Some (mkHTTPBasicAuth n pw))
    by reflexivity.
  assert (Hput : forall target j ps, exists r : Request,
             sent (snd (put target j ps w)) = (sent w ++ [r])%list
             /\ carries_json_and_auth r n pw).
  { intros target j ps. rewrite (put_run w _ target j ps Ha).
    eexists. split; [reflexivity|]. now split. }
  split; [exact Hput|].
  split; intros d ts msg part.
  - unfold upload_findings.
    rewrite (upload_external_data_run w u p _ d ts msg part eq_refl eq_refl).
    apply Hput.
  - unfold upload_metrics.
    rewrite (upload_external_data_run w u p _ d ts msg part eq_refl eq_refl).
    apply Hput.
Qed.

(** C7. [read_json_from_file] reads the file at the path, gives its whole
    content to the JSON decoder and returns the decoded value, leaving the
    world as it was; when the file is missing or unreadable, or the decoder
    rejects the content, it raises and returns no value.  With the reference
    decoder, a file holding the text of [doc_a1] (an object with the one
    member a, of value 1) yields the mapping of a to 1, and a file holding a
    truncated document raises. *)
Theorem read_json_from_file_spec (loads : string -> option json_value)
    (w : World) (path : string) :
  (forall (c : string) (v : json_value),
      disk w !! path = Some (Readable c) ->
      loads c = Some v ->
      read_json_from_file loads path w = (Ok v, w))
  /\ (disk w !! path = None
      \/ disk w !! path = Some Unreadable
      \/ (exists c : string,
             disk w !! path = Some (Readable c) /\ loads c = None) ->
      exists e : exn, read_json_from_file loads path w = (Raise e, w))
  /\ (disk w !! path = Some (Readable doc_a1) ->
      read_json_from_file SimpleJson.loads path w
      = (Ok (JDict [("a", JInt 1)]), w))
  /\ (disk w !! path = Some (Readable doc_broken) ->
      read_json_from_file SimpleJson.loads path w
      = (Raise JSONDecodeError, w)).
Proof.
  assert (Hread : forall (f : string -> option json_value) (c : string),
             disk w !! path = Some (Readable c) ->
             read_json_from_file f path w
             = (match f c with
                | Some v => Ok v
                | None => Raise JSONDecodeError
                end, w)).
  { intros f c Hc. unfold read_json_from_file, bind, open_read, json_load.
    rewrite Hc. now destruct (f c). }
  split; [|split; [|split]].
  - intros c v Hc Hv. now rewrite (Hread loads c Hc), Hv.
  - intros [Hnone | [Hlocked | (c & Hc & Hv)]].
    + exists (IOError ENOENT).
      unfold read_json_from_file, bind, open_read. now rewrite Hnone.
    + exists (IOError EACCES).
      unfold read_json_from_file, bind, open_read. now rewrite Hlocked.
    + exists JSONDecodeError. now rewrite (Hread loads c Hc), Hv.
  - intros Hc. now rewrite (Hread SimpleJson.loads doc_a1 Hc).
  - intros Hc. now rewrite (Hread SimpleJson.loads doc_broken Hc).
Qed.

Lemma read_json_from_file_spec_witness :
  disk (example_world (Ok resp_ok)) !! "metrics.json" = Some (Readable doc_a1)
  /\ SimpleJson.loads doc_a1 = Some (JDict [("a", JInt 1)])
  /\ read_json_from_file SimpleJson.loads "metrics.json"
       (example_world (Ok resp_ok))
     = (Ok (JDict [("a", JInt 1)]), example_world (Ok resp_ok))
  /\ disk (example_world (Ok resp_ok)) !! "broken.json"
     = Some (Readable doc_broken)
  /\ read_json_from_file SimpleJson.loads "broken.json"
       (example_world (Ok resp_ok))
     = (Raise JSONDecodeError, example_world (Ok resp_ok))
  /\ disk (example_world (Ok resp_ok)) !! "missing.json" = None
  /\ exists e : exn,
       read_json_from_file SimpleJson.loads "missing.json"
         (example_world (Ok resp_ok))
       = (Raise e, example_world (Ok resp_ok)).
Proof.
  split; [reflexivity|]. split; [reflexivity|]. split.
  { exact (proj1 (read_json_from_file_spec SimpleJson.loads
                    (example_world (Ok resp_ok)) "metrics.json")
             doc_a1 (JDict [("a", JInt 1)]) eq_refl eq_refl). }
  split; [reflexivity|]. split.
  { exact (proj2 (proj2 (proj2 (read_json_from_file_spec SimpleJson.loads
                    (example_world (Ok resp_ok)) "broken.json")))
             eq_refl). }
  split; [reflexivity|].
  exact (proj1 (proj2 (read_json_from_file_spec SimpleJson.loads
                   (example_world (Ok resp_ok)) "missing.json"))
           (or_introl eq_refl)).
Defined.

(** C8. The configuration is assigned by the constructor and by nothing
    else: after construction [self] holds exactly the four configured
    attributes, and every operation ([put], [upload_findings],
    [upload_metrics], [_upload_external_data], [get_project_service_url],
    [read_json_from_file]) leaves [self] as it found it, whether the
    operation returns or raises. *)
Theorem configuration_is_immutable :
  (forall (u n pw p : pyval) (w : World),
      self (snd (__init__ u n pw p w)) = client u n pw p)
  /\ (forall (target : pyval) (j : json_value) (ps : gmap string pyval),
        preserves_self (put target j ps))
  /\ (forall (d : json_value) (ts msg part : pyval),
        preserves_self (upload_findings d ts msg part))
  /\ (forall (d : json_value) (ts msg part : pyval),
        preserves_self (upload_metrics d ts msg part))
  /\ (forall (sn : pyval) (d : json_value) (ts msg part : pyval),
        preserves_self (_upload_external_data sn d ts msg part))
  /\ (forall sn : pyval, preserves_self (get_project_service_url sn))
  /\ (forall (loads : string -> option json_value) (path : string),
        preserves_self (read_json_from_file loads path)).
Proof.
  split; [reflexivity|].
  split; [exact preserves_put|].
  split; [intros; apply preserves_upload_external_data|].
  split; [intros; apply preserves_upload_external_data|].
  split; [exact preserves_upload_external_data|].
  split; [exact preserves_get_project_service_url|].
  exact preserves_read_json_from_file.
Qed.

(** A failed upload leaves the client as constructed. *)
Example self_after_failed_upload :
  fst (upload_findings example_findings example_timestamp example_message
         example_partition (example_world (Ok resp_not_found)))
  = Raise (Exception (PyStr
      "ERROR: PUT http://ts.example.com/p/proj1/add-external-findings/: 404:not found"))
  /\ self (snd (upload_findings example_findings example_timestamp
                  example_message example_partition
                  (example_world (Ok resp_not_found))))
     = example_client.
Proof. split; reflexivity. Qed.

(** C9. [upload_findings] is [_upload_external_data] at the service name
    add-external-findings and [upload_metrics] is [_upload_external_data] at
    add-external-metrics.  On a configured client the two therefore send
    requests that agree on the method, the query parameters, the body, the
    headers and the credentials, and whose URLs share everything up to the
    service name and the closing slash after it. *)
Theorem uploads_differ_in_service_name (d : json_value) (ts msg part : pyval) :
  upload_findings d ts msg part
  = _upload_external_data (PyStr "add-external-findings") d ts msg part
  /\ upload_metrics d ts msg part
     = _upload_external_data (PyStr "add-external-metrics") d ts msg part
  /\ (forall (w : World) (u p : pyval) (a : HTTPBasicAuth),
        url (self w) = Some u ->
        project (self w) = Some p ->
        auth_header (self w) = Some a ->
        exists (base : string) (ps : gmap string pyval),
          sent (snd (upload_findings d ts msg part w))
          = (sent w ++ [put_request a
                          (PyStr (base +:+ "add-external-findings" +:+ "/"))
                          d ps])%list
          /\ sent (snd (upload_metrics d ts msg part w))
             = (sent w ++ [put_request a
                             (PyStr (base +:+ "add-external-metrics" +:+ "/"))
                             d ps])%list).
Proof.
  split; [reflexivity|]. split; [reflexivity|].
  intros w u p a Hu Hp Ha.
  exists (py_str u +:+ "/p/" +:+ py_str p +:+ "/"),
         (upload_parameters ts msg part).
  unfold upload_findings, upload_metrics.
  rewrite !(upload_external_data_run w u p _ d ts msg part Hu Hp).
  rewrite !(put_run w a _ _ _ Ha). simpl.
  now rewrite !append_assoc.
Qed.

Lemma uploads_differ_in_service_name_witness :
  exists (base : string) (ps : gmap string pyval),
    sent (snd (upload_findings example_findings example_timestamp
                 example_message example_partition
                 (example_world (Ok resp_ok))))
    = [put_request (mkHTTPBasicAuth (PyStr "build") (PyStr "s3cret"))
         (PyStr (base +:+ "add-external-findings" +:+ "/"))
         example_findings ps]
    /\ sent (snd (upload_metrics example_findings example_timestamp
                    example_message example_partition
                    (example_world (Ok resp_ok))))
       = [put_request (mkHTTPBasicAuth (PyStr "build") (PyStr "s3cret"))
            (PyStr (base +:+ "add-external-metrics" +:+ "/"))
            example_findings ps].
Proof.
  exact (proj2 (proj2 (uploads_differ_in_service_name example_findings
                         example_timestamp example_message example_partition))
           (example_world (Ok resp_ok)) _ _ _ eq_refl eq_refl eq_refl).
Defined.

(** C10. The constructor validates nothing and performs no I/O: for all
    arguments it returns normally, stores the URL, the user name and the
    project as given together with the credentials made of the user name and
    the password, sends no request and leaves the files and the remote side
    alone; empty strings are accepted like any other value. *)
Theorem construction_is_total (u n pw p : pyval) (w : World) :
  fst (__init__ u n pw p w) = Ok tt
  /\ url (self (snd (__init__ u n pw p w))) = Some u
  /\ username (self (snd (__init__ u n pw p w))) = Some n
  /\ project (self (snd (__init__ u n pw p w))) = Some p
  /\ auth_header (self (snd (__init__ u n pw p w)))
     = Some (mkHTTPBasicAuth n pw)
  /\ sent (snd (__init__ u n pw p w)) = sent w
  /\ network (snd (__init__ u n pw p w)) = network w
  /\ disk (snd (__init__ u n pw p w)) = disk w
  /\ __init__ (PyStr "") (PyStr "") (PyStr "") (PyStr "") w
     = (Ok tt, with_self (client (PyStr "") (PyStr "") (PyStr "") (PyStr "")) w).
Proof. rewrite init_run. repeat split. Qed.

(** ** The reference decoder on small documents *)

Example loads_nested :
  SimpleJson.loads "[1, -20, true, null, [], {}]"
  = Some (JList [JInt 1; JInt (-20); JBool true; JNull; JList []; JDict []]).
Proof. reflexivity. Qed.

Example loads_rejects_fraction : SimpleJson.loads "[1.5]" = None.
Proof. reflexivity. Qed.

Example loads_rejects_trailing_comma : SimpleJson.loads "[1,]" = None.
Proof. reflexivity. Qed.

Example loads_rejects_empty : SimpleJson.loads "" = None.
Proof. reflexivity. Qed.

(** * Further properties of the client *)

(** ** I/O footprint *)

Section Footprint.

Context {A B : Type}.


Lemma io_weaken (a b : nat) (m : M A) :
  (a <= b)%nat -> io_bounded a m -> io_bounded b m.
Proof.
  intros Hab Hm w. destruct (Hm w) as (Hd & Hn & l & Hl & Hlen).
  repeat split; [exact Hd | exact Hn |].
  exists l. split; [exact Hl | lia].
Qed.



End Footprint.












(** ** Failures of [put] *)

(** X1. On a constructed client and a string URL, [put] raises in two cases
    only: the HTTP library raised, and then [put] raises that very exception
    (it is not wrapped into the ERROR: PUT message); or a response came back
    with a status code other than 200, and then [put] raises its own
    [Exception]. *)
Theorem put_raises_iff (w : World) (a : HTTPBasicAuth) (u : string)
    (j : json_value) (ps : gmap string pyval) (e : exn) :
  auth_header (self w) = Some a ->
  fst (put (PyStr u) j ps w) = Raise e
  <-> network w (sent w) (put_request a (PyStr u) j ps) = Raise e
      \/ exists resp : Response,
           network w (sent w) (put_request a (PyStr u) j ps) = Ok resp
           /\ status_code resp <> 200
           /\ e = Exception (PyStr ("ERROR: PUT " +:+ u +:+ ": "
                    +:+ pretty (status_code resp) +:+ ":" +:+ text resp)).
Proof.
  intros Ha. rewrite (put_run w a _ j ps Ha). simpl.
  destruct (network w (sent w) (put_request a (PyStr u) j ps))
    as [resp|e'].
  - destruct (Z.eqb_spec (status_code resp) 200) as [E|NE].
    + split; [discriminate|].
      intros [H | (r & [= <-] & NE & _)]; [discriminate | contradiction].
    + split.
      * intros [= <-]. right. now exists resp.
      * intros [H | (r & [= <-] & _ & ->)]; [discriminate | reflexivity].
  - split.
    + intros [= <-]. now left.
    + intros [[= <-] | (r & H & _)]; [reflexivity | discriminate].
Qed.

Lemma put_raises_iff_witness :
  auth_header (self (with_self example_client fresh_world))
  = Some (mkHTTPBasicAuth (PyStr "build") (PyStr "s3cret"))
  /\ fst (put (PyStr "http://ts.example.com/p/proj1/add-external-metrics/")
           example_findings ∅ (with_self example_client fresh_world))
     = Raise (RequestException "connection refused").
Proof.
  split; [reflexivity|].
  exact (proj2 (put_raises_iff (with_self example_client fresh_world)
                  (mkHTTPBasicAuth (PyStr "build") (PyStr "s3cret"))
                  "http://ts.example.com/p/proj1/add-external-metrics/"
                  example_findings ∅
                  (RequestException "connection refused") eq_refl)
           (or_introl eq_refl)).
Defined.

(** ** The shape of service URLs *)

Lemma append_char_inj (s s' : string) (c : ascii) :
  s +:+ String c "" = s' +:+ String c "" -> s = s'.
Proof.
  revert s'. induction s as [|a s IH]; intros [|a' s'] H.
  - reflexivity.
  - injection H as _ H. now destruct s'.
  - injection H as _ H. now destruct s.
  - injection H as -> H. f_equal. now apply IH.
Qed.

(** X2. On a configured client, different service names give different
    URLs; in particular findings and metrics are never sent to the same
    URL. *)
Theorem service_urls_distinct (w : World) (u p : pyval) (sn sn' : string) :
  url (self w) = Some u ->
  project (self w) = Some p ->
  sn <> sn' ->
  fst (get_project_service_url (PyStr sn) w)
  <> fst (get_project_service_url (PyStr sn') w).
Proof.
  intros Hu Hp Hne.
  rewrite !(get_project_service_url_run w u p _ Hu Hp). simpl.
  intros [= H]. apply Hne.
  apply (inj (String.append (py_str u))) in H.
  apply (inj (String.append "/p/")) in H.
  apply (inj (String.append (py_str p))) in H.
  apply (inj (String.append "/")) in H.
  now apply append_char_inj in H.
Qed.

Lemma service_urls_distinct_witness :
  fst (get_project_service_url (PyStr "add-external-findings")
         (example_world (Ok resp_ok)))
  <> fst (get_project_service_url (PyStr "add-external-metrics")
            (example_world (Ok resp_ok))).
Proof.
  apply (service_urls_distinct (example_world (Ok resp_ok))
           (PyStr "http://ts.example.com") (PyStr "proj1")
           "add-external-findings" "add-external-metrics"
           eq_refl eq_refl).
  discriminate.
Defined.

(** X3. The project and the service name are put into the URL as they are:
    a slash inside them is not escaped, so the project p/s with the service
    t and the project p with the service s/t are addressed by the same
    URL. *)
Theorem service_url_not_escaped (w1 w2 : World) (u : pyval) (p s t : string) :
  url (self w1) = Some u ->
  url (self w2) = Some u ->
  project (self w1) = Some (PyStr (p +:+ "/" +:+ s)) ->
  project (self w2) = Some (PyStr p) ->
  fst (get_project_service_url (PyStr t) w1)
  = fst (get_project_service_url (PyStr (s +:+ "/" +:+ t)) w2).
Proof.
  intros Hu1 Hu2 Hp1 Hp2.
  rewrite (get_project_service_url_run w1 u _ _ Hu1 Hp1).
  rewrite (get_project_service_url_run w2 u _ _ Hu2 Hp2).
  simpl. now rewrite !append_assoc.
Qed.

Lemma service_url_not_escaped_witness :
  fst (get_project_service_url (PyStr "findings")
         (with_self (client (PyStr "http://ts.example.com") (PyStr "build")
                       (PyStr "s3cret") (PyStr "proj1/x"))
            fresh_world))
  = fst (get_project_service_url (PyStr "x/findings")
           (example_world (Ok resp_ok))).
Proof.
  exact (service_url_not_escaped
           (with_self (client (PyStr "http://ts.example.com") (PyStr "build")
                         (PyStr "s3cret") (PyStr "proj1/x"))
              fresh_world)
           (example_world (Ok resp_ok))
           (PyStr "http://ts.example.com") "proj1" "x" "findings"
           eq_refl eq_refl eq_refl eq_refl).
Defined.



(** ** Reading a file, then uploading it *)

Lemma read_json_from_file_silent (loads : string -> option json_value)
    (path : string) (w : World) :
  snd (read_json_from_file loads path w) = w.
Proof.
  unfold read_json_from_file, bind, open_read, json_load.
  destruct (disk w !! path) as [[c|]|]; try reflexivity.
  now destruct (loads c).
Qed.

(** X5. Reading a file and uploading what was read, on a configured client:
    when the file is readable and decodes, exactly one request is sent, its
    body is the decoded document and the outcome is that of the upload;
    when reading raises (missing or unreadable file, text the decoder
    rejects), that exception is the outcome and no request is sent at all. *)
Theorem read_then_upload (loads : string -> option json_value) (w : World)
    (u p : pyval) (a : HTTPBasicAuth) (path : string) (ts msg part : pyval) :
  url (self w) = Some u ->
  project (self w) = Some p ->
  auth_header (self w) = Some a ->
  (forall (c : string) (v : json_value),
      disk w !! path = Some (Readable c) ->
      loads c = Some v ->
      (do metrics <- read_json_from_file loads path in
       upload_metrics metrics ts msg part) w
      = upload_metrics v ts msg part w
      /\ exists r : Request,
           sent (snd ((do metrics <- read_json_from_file loads path in
                       upload_metrics metrics ts msg part) w))
           = (sent w ++ [r])%list
           /\ req_json r = v)
  /\ (forall e : exn,
        fst (read_json_from_file loads path w) = Raise e ->
        (do metrics <- read_json_from_file loads path in
         upload_metrics metrics ts msg part) w
        = (Raise e, w)).
Proof.
  intros Hu Hp Ha. split.
  - intros c v Hc Hv.
    assert (Hread : read_json_from_file loads path w = (Ok v, w)).
    { unfold read_json_from_file, bind, open_read, json_load.
      now rewrite Hc, Hv. }
    rewrite (bind_ok _ _ w w v Hread). split; [reflexivity|].
    unfold upload_metrics.
    rewrite (upload_external_data_run w u p _ v ts msg part Hu Hp).
    rewrite (put_run w a _ _ _ Ha). simpl. now eexists.
  - intros e He.
    pose proof (read_json_from_file_silent loads path w) as Hw.
    destruct (read_json_from_file loads path w) as [r w'] eqn:Hread.
    simpl in He, Hw. subst r w'.
    now rewrite (bind_raise _ _ w w e Hread).
Qed.

Lemma read_then_upload_witness :
  (do metrics <- read_json_from_file SimpleJson.loads "metrics.json" in
   upload_metrics metrics example_timestamp example_message
     example_partition) (example_world (Ok resp_ok))
  = upload_metrics (JDict [("a", JInt 1)]) example_timestamp example_message
      example_partition (example_world (Ok resp_ok))
  /\ (do metrics <- read_json_from_file SimpleJson.loads "broken.json" in
      upload_metrics metrics example_timestamp example_message
        example_partition) (example_world (Ok resp_ok))
     = (Raise JSONDecodeError, example_world (Ok resp_ok)).
Proof.
  pose proof (read_then_upload SimpleJson.loads (example_world (Ok resp_ok))
                _ _ _ "metrics.json" example_timestamp example_message
                example_partition eq_refl eq_refl eq_refl) as Hgood.
  pose proof (read_then_upload SimpleJson.loads (example_world (Ok resp_ok))
                _ _ _ "broken.json" example_timestamp example_message
                example_partition eq_refl eq_refl eq_refl) as Hbad.
  split.
  - exact (proj1 (proj1 Hgood doc_a1 (JDict [("a", JInt 1)])
                    eq_refl eq_refl)).
  - exact (proj2 Hbad JSONDecodeError eq_refl).
Defined.

(** ** Reading the error message back *)

Lemma has_char_pretty_N_char (c : ascii) (x : N) :
  c = ":"%char -> Ascii.eqb c (pretty_N_char x) = false.
Proof.
  intros ->. unfold pretty_N_char. now repeat case_match.
Qed.

Lemma has_char_pretty_N_go (x : N) (s : string) :
  has_char ":" (pretty_N_go x s) = has_char ":" s.
Proof.
  revert s. induction (N.lt_wf_0 x) as [x _ IH]. intros s.
  destruct (decide (0 < x)%N) as [Hpos|Hzero].
  - rewrite pretty_N_go_step by exact Hpos.
    rewrite IH by now apply N.div_lt.
    cbn [has_char]. now rewrite has_char_pretty_N_char.
  - assert (x = 0%N) as -> by lia. now rewrite pretty_N_go_0.
Qed.

Lemma has_char_pretty_Z (z : Z) : has_char ":" (pretty z) = false.
Proof.
  destruct z as [|x|x]; [reflexivity| |].
  - unfold pretty, pretty_Z, pretty, pretty_positive, pretty, pretty_N.
    destruct (decide (N.pos x = 0%N)); [reflexivity|].
    now rewrite has_char_pretty_N_go.
  - unfold pretty, pretty_Z, pretty, pretty_positive, pretty, pretty_N.
    destruct (decide (N.pos x = 0%N)); [reflexivity|].
    change (has_char ":" (String "-" (pretty_N_go (N.pos x) "")) = false).
    simpl. now rewrite has_char_pretty_N_go.
Qed.

(** Two texts cut at the first occurrence of [c] have equal parts. *)
Lemma split_at_first (c : ascii) (a b x y : string) :
  has_char c a = false ->
  has_char c b = false ->
  a +:+ String c x = b +:+ String c y ->
  a = b /\ x = y.
Proof.
  revert b. induction a as [|d a IH]; intros [|d' b] Ha Hb H.
  - injection H as ->. now split.
  - injection H as -> _. simpl in Hb. now rewrite Ascii.eqb_refl in Hb.
  - injection H as <- _. simpl in Ha. now rewrite Ascii.eqb_refl in Ha.
  - injection H as -> H. simpl in Ha, Hb.
    apply orb_false_iff in Ha as [_ Ha]. apply orb_false_iff in Hb as [_ Hb].
    destruct (IH b Ha Hb H) as [-> ->]. now split.
Qed.

(** X7. For a given URL the message of the exception [put] raises determines
    the response: when two calls of [put] on the same URL raise [Exception]
    with the same message, the two responses had the same status code and
    the same body text. *)
Theorem error_message_determines_response (w1 w2 : World)
    (a1 a2 : HTTPBasicAuth) (u : string) (j1 j2 : json_value)
    (ps1 ps2 : gmap string pyval) (resp1 resp2 : Response) (m : pyval) :
  auth_header (self w1) = Some a1 ->
  auth_header (self w2) = Some a2 ->
  network w1 (sent w1) (put_request a1 (PyStr u) j1 ps1) = Ok resp1 ->
  network w2 (sent w2) (put_request a2 (PyStr u) j2 ps2) = Ok resp2 ->
  fst (put (PyStr u) j1 ps1 w1) = Raise (Exception m) ->
  fst (put (PyStr u) j2 ps2 w2) = Raise (Exception m) ->
  status_code resp1 = status_code resp2 /\ text resp1 = text resp2.
Proof.
  intros Ha1 Ha2 Hn1 Hn2.
  rewrite (put_run w1 a1 _ j1 ps1 Ha1), Hn1.
  rewrite (put_run w2 a2 _ j2 ps2 Ha2), Hn2. simpl.
  destruct (Z.eqb (status_code resp1) 200); [discriminate|].
  destruct (Z.eqb (status_code resp2) 200); [discriminate|].
  intros [= <-] [= H].
  change (u +:+ ": " +:+ pretty (status_code resp2) +:+ ":" +:+ text resp2
          = u +:+ ": " +:+ pretty (status_code resp1) +:+ ":" +:+ text resp1)
    in H.
  apply (inj (String.append u)) in H.
  apply (inj (String.append ": ")) in H.
  apply split_at_first in H as [Hs Ht]; try apply has_char_pretty_Z.
  split; [|now symmetry]. symmetry. now apply (inj pretty).
Qed.

Lemma error_message_determines_response_witness :
  fst (put (PyStr "http://ts.example.com/p/proj1/add-external-metrics/")
         example_findings ∅ (example_world (Ok resp_not_found)))
  = Raise (Exception (PyStr
      "ERROR: PUT http://ts.example.com/p/proj1/add-external-metrics/: 404:not found"))
  /\ status_code resp_not_found = 404
  /\ text resp_not_found = "not found".
Proof.
  split; [reflexivity|].
  exact (error_message_determines_response
           (example_world (Ok resp_not_found))
           (example_world (Ok {| status_code := 404; text := "not found";
                                 resp_headers := [("Server", "nginx")] |}))
           _ _ "http://ts.example.com/p/proj1/add-external-metrics/"
           example_findings JNull ∅ ∅ resp_not_found _ _
           eq_refl eq_refl eq_refl eq_refl eq_refl eq_refl).
Defined.

(** ** The outcome of an upload *)


